(** * Interactive sales dashboard: the filter-and-aggregate pipeline of app.py

    A shallow embedding of the data path of [app.py]: the sidebar selection,
    the boolean-mask filter that yields [df_filtered], the three KPIs, the
    per-date series, the Sankey node/link lists and the word-cloud
    frequencies.  Widgets and chart drawing are left out; what they read is
    kept.

    Every cell holds a value: a Sales cell a finite number (a rational), a
    Quantity cell an integer.  The Quantity column is summed as int64, with
    wrap-around.  The Sales column is summed with the addition of its
    dtype, which is a parameter ([add]) of everything that adds Sales:
    float64 addition rounds, so what holds for every [add] holds for the
    script, and what needs exact addition says so. *)

From Stdlib Require Import ZArith QArith Lia Sorting.Sorted.
From stdpp Require Import base tactics option list gmap strings.

Close Scope Q_scope.
Local Open Scope Z_scope.

(** ** Data model *)

(** One row of sales_data.csv.  [Date] is the parsed timestamp
    (nanoseconds since the epoch), the other columns are as read. *)
Record Row : Type := mkRow {
  Date : Z;
  Region : string;
  Product : string;
  Sales : Q;
  Quantity : Z
}.

(** [df[name]]: one column of a frame, in row order. *)
Definition col {A : Type} (name : Row → A) (df : list Row) : list A :=
  map name df.

(** ** Exceptions *)

Inductive exn : Type :=
  | IndexError
  | KeyError
  | ZeroDivisionError
  | ValueError.

Inductive result (A : Type) : Type :=
  | Ok (a : A)
  | Raise (e : exn).
Arguments Ok {A} a.
Arguments Raise {A} e.

(** The exception monad, through stdpp's [MRet]/[MBind] classes, which give
    the [x ← m; k] notation. *)
#[global] Instance result_ret : MRet result := λ A a, Ok a.
#[global] Instance result_bind : MBind result := λ A B k m,
  match m with
  | Ok a => k a
  | Raise e => Raise e
  end.

(** [l[i]] for a non-negative index. *)
Definition getitem {A : Type} (l : list A) (i : nat) : result A :=
  match l !! i with
  | Some x => Ok x
  | None => Raise IndexError
  end.

(** [d[k]] on a dict. *)
Definition dict_getitem (d : gmap string nat) (k : string) : result nat :=
  match d !! k with
  | Some v => Ok v
  | None => Raise KeyError
  end.

(** A loop whose body may raise: the first exception ends it. *)
Fixpoint for_each {S A : Type} (body : S → A → result S) (items : list A)
    (s : S) : result S :=
  match items with
  | [] => Ok s
  | x :: items' => s' ← body s x; for_each body items' s'
  end.

(** ** Series operations *)

(** [s.isin(values)] *)
Definition isin (values : list string) (s : list string) : list bool :=
  map (λ x, bool_decide (x ∈ values)) s.

(** [s.between(left, right)], with pandas' default [inclusive="both"]. *)
Definition between (left right : Z) (s : list Z) : list bool :=
  map (λ x, (left <=? x) && (x <=? right)) s.

(** [m1 & m2] on boolean series of one frame. *)
Definition mask_and (m1 m2 : list bool) : list bool := zip_with andb m1 m2.

(** [df[mask]]: the rows whose mask entry is True. *)
Fixpoint select (df : list Row) (mask : list bool) : list Row :=
  match df, mask with
  | r :: df', b :: mask' =>
      if b then r :: select df' mask' else select df' mask'
  | _, _ => []
  end.

Definition ns_per_day : Z := 86400000000000.

(** [pd.to_datetime(d)] for a [datetime.date] given as a day number:
    midnight of that day. *)
Definition to_datetime (d : Z) : Z := d * ns_per_day.

(** ** Sidebar filters (lines 40-44)

    [date_filter] is what [st.date_input] returned for a range value: a
    tuple of the dates picked so far. *)
Definition df_filtered (df : list Row) (region_filter product_filter : list string)
    (date_filter : list Z) : result (list Row) :=
  let m_region := isin region_filter (col Region df) in
  let m_product := isin product_filter (col Product df) in
  d0 ← getitem date_filter 0;
  d1 ← getitem date_filter 1;
  let m_date := between (to_datetime d0) (to_datetime d1) (col Date df) in
  Ok (select df (mask_and (mask_and m_region m_product) m_date)).

(** The filtered view as the data model words it: the rows that pass the
    three membership tests, kept in order. *)
Definition passes (region_set product_set : list string) (start stop : Z)
    (r : Row) : bool :=
  bool_decide (Region r ∈ region_set)
  && bool_decide (Product r ∈ product_set)
  && ((to_datetime start <=? Date r) && (Date r <=? to_datetime stop)).

Definition FilteredView (dataset : list Row) (region_set product_set : list string)
    (start stop : Z) : list Row :=
  List.filter (passes region_set product_set start stop) dataset.

(** ** Machine arithmetic *)

(** A 64-bit signed integer keeps the low 64 bits of a result. *)
Definition wrap_int64 (z : Z) : Z := (z + 2 ^ 63) mod 2 ^ 64 - 2 ^ 63.

Definition exact_sum_Z (s : list Z) : Z := foldr Z.add 0 s.

(** An addition under which sums can be regrouped and reordered, with 0
    neutral.  Exact addition is one; float64 addition is not (it is not
    associative). *)
Definition regroups (add : Q → Q → Q) : Prop :=
  (∀ x, add 0%Q x = x)
  ∧ (∀ x y, add x y = add y x)
  ∧ (∀ x y z, add x (add y z) = add (add x y) z).



Section machine.
Context (add : Q → Q → Q).

(** ** KPIs (lines 49-51) *)

(** [s.sum()]: the column is accumulated from 0, top to bottom, with the
    addition of its dtype. *)
Definition sum_Q (s : list Q) : Q := foldl add 0%Q s.
Definition sum_Z (s : list Z) : Z := foldl (λ a x, wrap_int64 (a + x)) 0 s.

Definition total_sales (df : list Row) : Q := sum_Q (col Sales df).
Definition total_quantity (df : list Row) : Z := sum_Z (col Quantity df).

(** What a numeric expression of the script evaluates to: a finite number,
    or one of the three special values a division by zero on numpy scalars
    produces. *)
Inductive number : Type :=
  | Fin (q : Q)
  | PosInf
  | NegInf
  | NaN.

(** [x / y] on numpy scalars: the special values on a zero divisor;
    otherwise the quotient, written here unrounded. *)
Definition truediv (x : Q) (y : Z) : number :=
  if y =? 0 then
    match Qnum x ?= 0 with
    | Eq => NaN
    | Gt => PosInf
    | Lt => NegInf
    end
  else Fin (x / inject_Z y)%Q.

Definition avg_order_value (df : list Row) : number :=
  if total_quantity df >? 0
  then truediv (total_sales df) (total_quantity df)
  else Fin 0%Q.

(** ** Group-by sums (lines 65, 71, 122)

    [df.groupby(key)["Sales"].sum()]: one entry per distinct key, keys in
    ascending order, each entry the running sum of its rows' Sales. *)
Section groupby.
Context {K : Type} (cmp : K → K → comparison).

Fixpoint group_add (k : K) (v : Q) (groups : list (K * Q)) : list (K * Q) :=
  match groups with
  | [] => [(k, add 0%Q v)]
  | (k', t) :: groups' =>
      match cmp k k' with
      | Lt => (k, add 0%Q v) :: groups
      | Eq => (k', add t v) :: groups'
      | Gt => (k', t) :: group_add k v groups'
      end
  end.

Definition groupby_sum (key : Row → K) (df : list Row) : list (K * Q) :=
  foldl (λ groups r, group_add (key r) (Sales r) groups) [] df.
End groupby.

(** [sales_over_time], after [reset_index()]: (Date, Sales) rows. *)
Definition sales_over_time (df : list Row) : list (Z * Q) :=
  groupby_sum Z.compare Date df.


(** The frame behind [fig_region]. *)
Definition sales_by_region (df : list Row) : list (string * Q) :=
  groupby_sum String.compare Region df.

(** [word_freq]: the per-product sums as a dict. *)
Definition word_freq (df : list Row) : gmap string Q :=
  list_to_map (groupby_sum String.compare Product df).

(** ** Sankey data (lines 88-99) *)

(** [s.unique()]: the distinct values in order of first appearance. *)
Definition unique (s : list string) : list string :=
  foldl (λ seen x, if decide (x ∈ seen) then seen else seen ++ [x]) [] s.

(** The position of a label in a list of distinct labels: the index the
    specification says the label receives. *)
Fixpoint index_of (x : string) (l : list string) : nat :=
  match l with
  | [] => 0
  | y :: l' => if decide (x = y) then 0 else S (index_of x l')
  end.

(** [enumerate(l)] *)
Definition enumerate {A : Type} (l : list A) : list (nat * A) := imap pair l.

(** [{k: start + i for i, k in enumerate(keys)}]; a later binding of a key
    replaces an earlier one. *)
Definition index_dict (start : nat) (keys : list string) : gmap string nat :=
  foldl (λ d ik, <[ik.2 := (start + ik.1)%nat]> d) ∅ (enumerate keys).

Definition regions (df : list Row) : list string := unique (col Region df).
Definition products (df : list Row) : list string := unique (col Product df).
Definition labels (df : list Row) : list string := regions df ++ products df.
Definition region_idx (df : list Row) : gmap string nat :=
  index_dict 0 (regions df).
Definition product_idx (df : list Row) : gmap string nat :=
  index_dict (length (regions df)) (products df).

(** The three lists the loop appends to. *)
Record Links : Type := mkLinks {
  sources : list nat;
  targets : list nat;
  values : list Q
}.

(** One turn of the [iterrows] loop. *)
Definition sankey_row (r_idx p_idx : gmap string nat) (acc : Links) (row : Row)
    : result Links :=
  s ← dict_getitem r_idx (Region row);
  let sources' := sources acc ++ [s] in
  t ← dict_getitem p_idx (Product row);
  let targets' := targets acc ++ [t] in
  let values' := values acc ++ [Sales row] in
  Ok (mkLinks sources' targets' values').

Definition sankey_links (df : list Row) : result Links :=
  for_each (sankey_row (region_idx df) (product_idx df)) df (mkLinks [] [] []).

(** What [go.Sankey] is given: the node labels and the link lists. *)
Record Sankey : Type := mkSankey {
  node_label : list string;
  link : Links
}.

Definition sankey (df : list Row) : result Sankey :=
  l ← sankey_links df;
  Ok (mkSankey (labels df) l).

(** ** Word cloud (lines 122-130)

    [WordCloud.generate_from_frequencies] refuses an empty dict and
    divides every frequency by the largest one, which raises when the
    largest frequency is 0.  How the words are then laid out is not
    modelled. *)
Definition Qmax_b (x y : Q) : Q := if Qle_bool x y then y else x.

Definition max_frequency (wf : gmap string Q) : option Q :=
  match (map_to_list wf).*2 with
  | [] => None
  | x :: l => Some (foldl Qmax_b x l)
  end.

Definition generate_from_frequencies (wf : gmap string Q)
    : result (gmap string Q) :=
  match max_frequency wf with
  | None => Raise ValueError
  | Some m => if Qeq_bool m 0 then Raise ZeroDivisionError else Ok wf
  end.

(** ** The script, top to bottom *)

Record Dashboard : Type := mkDashboard {
  shown_rows : list Row;
  kpi_sales : Q;
  kpi_quantity : Z;
  kpi_avg : number;
  fig_time : list (Z * Q);
  fig_region : list (string * Q);
  fig_product : list (string * Q);
  fig_sankey : Sankey;
  wordcloud : option (gmap string Q)
}.

(** One run of app.py on the loaded frame and the sidebar's values.  The
    pie chart gets the raw (Product, Sales) pairs; the word cloud is asked
    for only when the dict is not empty. *)
Definition app (df : list Row) (region_filter product_filter : list string)
    (date_filter : list Z) : result Dashboard :=
  dff ← df_filtered df region_filter product_filter date_filter;
  sk ← sankey dff;
  let wf := word_freq dff in
  wc ← (if decide (wf = ∅) then Ok None
        else (c ← generate_from_frequencies wf; Ok (Some c)));
  Ok (mkDashboard dff (total_sales dff) (total_quantity dff)
        (avg_order_value dff) (sales_over_time dff) (sales_by_region dff)
        (map (λ r, (Product r, Sales r)) dff) sk wc).

(** ** Sidebar defaults (lines 22-37) *)

(** [s.min()] and [s.max()] on the Date column; [None] stands for NaT, the
    answer on an empty column. *)
Definition Series_min (s : list Z) : option Z :=
  match s with
  | [] => None
  | x :: s' => Some (foldl Z.min x s')
  end.

Definition Series_max (s : list Z) : option Z :=
  match s with
  | [] => None
  | x :: s' => Some (foldl Z.max x s')
  end.

(** [ts.date()]: the calendar day a timestamp falls on; a date picker keeps
    this much of a datetime it is given. *)
Definition to_date (ts : Z) : Z := ts / ns_per_day.

(** The multiselects start with every option selected. *)
Definition default_region_filter (df : list Row) : list string :=
  unique (col Region df).
Definition default_product_filter (df : list Row) : list string :=
  unique (col Product df).

(** The date picker starts on [min, max] of the Date column (no value on
    an empty frame, whose min and max are NaT). *)
Definition default_date_filter (df : list Row) : option (list Z) :=
  lo ← Series_min (col Date df);
  hi ← Series_max (col Date df);
  Some [to_date lo; to_date hi].




(** The two-row dataset of the specification's scenario
    (2024-01-01 is day 19723). *)
Definition scenario_df : list Row :=
  [ mkRow (to_datetime 19723) "East" "Widget" 100%Q 2;
    mkRow (to_datetime 19724) "West" "Gadget" 50%Q 1 ].


(** Two rows whose quantities add up to 2^63. *)
Definition overflow_df : list Row :=
  [ mkRow (to_datetime 19723) "East" "Widget" 100%Q 9223372036854775807;
    mkRow (to_datetime 19724) "West" "Gadget" 50%Q 1 ].

(** * Properties *)

(** ** Exact sums

    [Qplus] does not normalise, so sums of rationals can be rearranged up
    to equality of the fractions themselves. *)

Lemma Qplus_0_l_eq (x : Q) : (0 + x)%Q = x.
Proof.
  destruct x as [n m]. unfold Qplus. cbn. f_equal. lia.
Qed.

Lemma Qplus_comm_eq (x y : Q) : (x + y)%Q = (y + x)%Q.
Proof.
  destruct x as [a b], y as [c e]. unfold Qplus. cbn [Qnum Qden].
  f_equal; [ring | apply Pos.mul_comm].
Qed.

Lemma Qplus_assoc_eq (x y z : Q) : (x + (y + z))%Q = (x + y + z)%Q.
Proof.
  destruct x as [a b], y as [c e], z as [f g]. unfold Qplus. cbn [Qnum Qden].
  f_equal; [rewrite !Pos2Z.inj_mul; ring | apply Pos.mul_assoc].
Qed.

Lemma regroups_Qplus : regroups Qplus.
Proof.
  split; [apply Qplus_0_l_eq|]. split; [apply Qplus_comm_eq | apply Qplus_assoc_eq].
Qed.






(** ** Sums that wrap *)

Lemma wrap_int64_small (z : Z) : - 2 ^ 63 ≤ z < 2 ^ 63 → wrap_int64 z = z.
Proof. intros Hz. unfold wrap_int64. rewrite Z.mod_small; lia. Qed.

Lemma wrap_int64_range (z : Z) : - 2 ^ 63 ≤ wrap_int64 z < 2 ^ 63.
Proof.
  unfold wrap_int64. pose proof (Z.mod_pos_bound (z + 2 ^ 63) (2 ^ 64)). lia.
Qed.

Lemma wrap_int64_add_l (a x : Z) :
  wrap_int64 (wrap_int64 a + x) = wrap_int64 (a + x).
Proof.
  unfold wrap_int64. f_equal.
  replace ((a + 2 ^ 63) mod 2 ^ 64 - 2 ^ 63 + x + 2 ^ 63)
    with ((a + 2 ^ 63) mod 2 ^ 64 + x) by lia.
  rewrite Zplus_mod_idemp_l. f_equal. lia.
Qed.

Lemma foldl_wrap (a : Z) (s : list Z) :
  foldl (λ a x, wrap_int64 (a + x)) (wrap_int64 a) s
  = wrap_int64 (a + exact_sum_Z s).
Proof.
  revert a. induction s as [|x s IH]; intros a; cbn [foldl].
  - unfold exact_sum_Z. cbn [foldr]. by rewrite Z.add_0_r.
  - rewrite wrap_int64_add_l, IH. f_equal.
    unfold exact_sum_Z. cbn [foldr]. lia.
Qed.

Lemma sum_Z_wraps (s : list Z) : sum_Z s = wrap_int64 (exact_sum_Z s).
Proof. exact (foldl_wrap 0 s). Qed.

Lemma exact_sum_Z_Permutation (l1 l2 : list Z) :
  l1 ≡ₚ l2 → exact_sum_Z l1 = exact_sum_Z l2.
Proof.
  unfold exact_sum_Z.
  induction 1 as [|x l1 l2 _ IH|x y l|l1 l2 l3 _ IH1 _ IH2];
    cbn [foldr]; lia.
Qed.

Lemma exact_sum_Z_sublist (l1 l2 : list Z) :
  l1 `sublist_of` l2 → Forall (λ n, 0 ≤ n) l2 →
  0 ≤ exact_sum_Z l1 ≤ exact_sum_Z l2.
Proof.
  unfold exact_sum_Z.
  induction 1 as [|x l1 l2 _ IH|x l1 l2 _ IH]; intros Hall; [done|..];
    apply Forall_cons in Hall as [Hx Hall]; specialize (IH Hall);
    cbn [foldr]; lia.
Qed.

(** ** The filter *)

Lemma select_masks (f g h : Row → bool) (df : list Row) :
  select df (mask_and (mask_and (map f df) (map g df)) (map h df))
  = List.filter (λ r, f r && g r && h r) df.
Proof.
  induction df as [|r df IH]; [done|].
  cbn. rewrite <- IH. unfold mask_and. by destruct (f r && g r && h r).
Qed.

Lemma df_filtered_range df rs ps start stop :
  df_filtered df rs ps [start; stop] = Ok (FilteredView df rs ps start stop).
Proof.
  unfold df_filtered, FilteredView, isin, between, col. cbn.
  rewrite !map_map. f_equal.
  apply (select_masks (λ r, bool_decide (Region r ∈ rs))
           (λ r, bool_decide (Product r ∈ ps))
           (λ r, (to_datetime start <=? Date r) && (Date r <=? to_datetime stop))).
Qed.

Lemma passes_spec rs ps start stop r :
  passes rs ps start stop r = true
  ↔ Region r ∈ rs ∧ Product r ∈ ps
    ∧ to_datetime start ≤ Date r ≤ to_datetime stop.
Proof.
  unfold passes. rewrite !andb_true_iff, !bool_decide_eq_true.
  rewrite !Z.leb_le. tauto.
Qed.

Lemma to_datetime_le (a b : Z) : to_datetime a ≤ to_datetime b ↔ a ≤ b.
Proof. unfold to_datetime, ns_per_day. lia. Qed.

Lemma elem_of_FilteredView df rs ps start stop r :
  r ∈ FilteredView df rs ps start stop
  ↔ r ∈ df ∧ passes rs ps start stop r = true.
Proof.
  unfold FilteredView. rewrite !list_elem_of_In, filter_In. tauto.
Qed.

Lemma FilteredView_no_regions df ps start stop :
  FilteredView df [] ps start stop = [].
Proof.
  unfold FilteredView. induction df as [|r df IH]; [done|].
  cbn. rewrite IH. unfold passes.
  rewrite (bool_decide_eq_false_2 (Region r ∈ [])); [done|]. apply not_elem_of_nil.
Qed.

Lemma FilteredView_no_products df rs start stop :
  FilteredView df rs [] start stop = [].
Proof.
  unfold FilteredView. induction df as [|r df IH]; [done|].
  cbn. rewrite IH. unfold passes.
  rewrite (bool_decide_eq_false_2 (Product r ∈ [])).
  - by rewrite andb_false_r.
  - apply not_elem_of_nil.
Qed.

(** C1: on a selection with a full date interval [start, stop], the frame
    the script keeps is exactly the dataset's rows, in row order, whose
    Region is in the region set, whose Product is in the product set and
    whose Date lies between start and stop, both ends included. *)
Theorem df_filtered_is_FilteredView df rs ps start stop :
  df_filtered df rs ps [start; stop] = Ok (FilteredView df rs ps start stop)
  ∧ FilteredView df rs ps start stop `sublist_of` df
  ∧ (∀ r, passes rs ps start stop r = true
          ↔ Region r ∈ rs ∧ Product r ∈ ps
            ∧ to_datetime start ≤ Date r ≤ to_datetime stop)
  ∧ (∀ r day, Date r = to_datetime day →
        (to_datetime start ≤ Date r ≤ to_datetime stop ↔ start ≤ day ≤ stop)).
Proof.
  split; [apply df_filtered_range|].
  split.
  { unfold FilteredView. induction df as [|r df IH]; [constructor|].
    cbn. destruct (passes rs ps start stop r); by constructor. }
  split; [intros r; apply passes_spec|].
  intros r day ->. by rewrite !to_datetime_le.
Qed.

(** C7: an empty region set, or an empty product set, leaves no row; and on
    the empty frame the three KPIs are 0, the word-cloud dict is empty and
    the Sankey data has no node and no link. *)
Theorem empty_selection_degrades df rs ps start stop :
  df_filtered df [] ps [start; stop] = Ok []
  ∧ df_filtered df rs [] [start; stop] = Ok []
  ∧ total_sales [] = 0%Q
  ∧ total_quantity [] = 0
  ∧ avg_order_value [] = Fin 0%Q
  ∧ word_freq [] = ∅
  ∧ sankey [] = Ok (mkSankey [] (mkLinks [] [] [])).
Proof.
  rewrite !df_filtered_range, FilteredView_no_regions, FilteredView_no_products.
  repeat split; reflexivity.
Qed.

(** C8, as the claim states it, fails on the scenario dataset: with region
    set {East}, product set {Gadget} and the full date range, both sets are
    non-empty and both rows are dated inside the interval, yet no row is
    kept. *)
Lemma dated_row_and_nonempty_sets_not_enough :
  ¬ (∀ df rs ps start stop,
       rs ≠ [] → ps ≠ [] →
       (∃ r, r ∈ df ∧ to_datetime start ≤ Date r ≤ to_datetime stop) →
       ∃ v, df_filtered df rs ps [start; stop] = Ok v ∧ v ≠ []
            ∧ Forall (λ x, Region x ∈ rs ∧ Product x ∈ ps
                           ∧ to_datetime start ≤ Date x ≤ to_datetime stop) v).
Proof.
  intros H.
  destruct (H scenario_df ["East"] ["Gadget"] 19723 19724) as (v & Hv & Hne & _).
  - done.
  - done.
  - exists (mkRow (to_datetime 19723) "East" "Widget" 100%Q 2). split.
    + apply list_elem_of_here.
    + cbn. unfold to_datetime, ns_per_day. lia.
  - vm_compute in Hv. congruence.
Qed.

(** C8, amended: when some row of the dataset passes all three tests at
    once, the filtered view is non-empty, and each of its rows has its
    Region in the region set, its Product in the product set and its Date
    inside the interval. *)
Theorem passing_row_gives_nonempty_view df rs ps start stop r :
  r ∈ df → Region r ∈ rs → Product r ∈ ps →
  to_datetime start ≤ Date r ≤ to_datetime stop →
  ∃ v, df_filtered df rs ps [start; stop] = Ok v ∧ v ≠ []
       ∧ Forall (λ x, Region x ∈ rs ∧ Product x ∈ ps
                      ∧ to_datetime start ≤ Date x ≤ to_datetime stop) v.
Proof.
  intros Hin Hr Hp Hd. exists (FilteredView df rs ps start stop).
  split; [apply df_filtered_range|]. split.
  - intros Hnil.
    assert (r ∈ FilteredView df rs ps start stop) as Hr'.
    { apply elem_of_FilteredView. split; [done|]. by apply passes_spec. }
    rewrite Hnil in Hr'. by apply not_elem_of_nil in Hr'.
  - apply Forall_forall. intros x Hx.
    apply elem_of_FilteredView in Hx as [_ Hx]. by apply passes_spec.
Qed.

Lemma passing_row_gives_nonempty_view_witness :
  ∃ v, df_filtered scenario_df ["East"; "West"] ["Widget"] [19723; 19724] = Ok v
       ∧ v ≠ []
       ∧ Forall (λ x, Region x ∈ ["East"; "West"] ∧ Product x ∈ ["Widget"]
                      ∧ to_datetime 19723 ≤ Date x ≤ to_datetime 19724) v.
Proof.
  apply (passing_row_gives_nonempty_view scenario_df ["East"; "West"] ["Widget"]
           19723 19724 (mkRow (to_datetime 19723) "East" "Widget" 100%Q 2)).
  - apply list_elem_of_here.
  - apply list_elem_of_here.
  - apply list_elem_of_here.
  - cbn. unfold to_datetime, ns_per_day. lia.
Defined.

(** ** KPIs *)


Lemma truediv_nonzero (x : Q) (y : Z) :
  y ≠ 0 → truediv x y = Fin (x / inject_Z y)%Q.
Proof.
  intros Hy. unfold truediv. by destruct (Z.eqb_spec y 0).
Qed.

(** C3: the average order value is total sales divided by total quantity
    when the total quantity is positive, is 0 when the total quantity is 0,
    and is in every case a finite number: the guard keeps the division away
    from a zero divisor, so neither NaN nor an infinity comes out. *)
Theorem avg_order_value_guarded df :
  (total_quantity df > 0 →
     avg_order_value df = Fin (total_sales df / inject_Z (total_quantity df))%Q)
  ∧ (total_quantity df = 0 → avg_order_value df = Fin 0%Q)
  ∧ (∃ q, avg_order_value df = Fin q).
Proof.
  unfold avg_order_value.
  destruct (Z.gtb_spec (total_quantity df) 0) as [Hpos|Hle].
  - rewrite truediv_nonzero by lia. repeat split; [lia | eauto].
  - repeat split; [lia | eauto].
Qed.

(** ** Distinct labels and their indices *)

Lemma unique_snoc (s : list string) (x : string) :
  unique (s ++ [x])
  = if decide (x ∈ unique s) then unique s else unique s ++ [x].
Proof. unfold unique. by rewrite foldl_snoc. Qed.

Lemma elem_of_unique (s : list string) (x : string) : x ∈ unique s ↔ x ∈ s.
Proof.
  induction s as [|y s IH] using rev_ind; [done|].
  rewrite unique_snoc. case_decide as Hy.
  - rewrite elem_of_app, list_elem_of_singleton, <- IH.
    split; [by left | by intros [?| ->]].
  - by rewrite !elem_of_app, IH.
Qed.

Lemma NoDup_unique (s : list string) : NoDup (unique s).
Proof.
  induction s as [|y s IH] using rev_ind; [constructor|].
  rewrite unique_snoc. case_decide as Hy; [done|].
  apply NoDup_app. split_and!; [done | | apply NoDup_singleton].
  intros z Hz Hz'. apply list_elem_of_singleton in Hz'. by subst.
Qed.

Lemma unique_first_occurrence (s : list string) (x : string) :
  unique (s ++ [x]) = if decide (x ∈ s) then unique s else unique s ++ [x].
Proof.
  rewrite unique_snoc.
  destruct (decide (x ∈ unique s)) as [H|H], (decide (x ∈ s)) as [H'|H'];
    try done; by rewrite elem_of_unique in H.
Qed.

Lemma index_of_lookup (x : string) (l : list string) :
  x ∈ l → l !! index_of x l = Some x.
Proof.
  induction l as [|y l IH]; [by intros ?%not_elem_of_nil|].
  intros Hx. cbn. case_decide as Hxy; [by subst|].
  apply elem_of_cons in Hx as [?|Hx]; [done|]. by apply IH.
Qed.

Lemma index_of_lt (x : string) (l : list string) :
  x ∈ l → (index_of x l < length l)%nat.
Proof. intros Hx. eapply lookup_lt_Some, index_of_lookup, Hx. Qed.

Lemma index_of_app_l (x : string) (l1 l2 : list string) :
  x ∈ l1 → index_of x (l1 ++ l2) = index_of x l1.
Proof.
  induction l1 as [|y l1 IH]; [by intros ?%not_elem_of_nil|].
  intros Hx. cbn. case_decide as Hxy; [done|].
  apply elem_of_cons in Hx as [?|Hx]; [done|]. by rewrite IH.
Qed.

Lemma index_of_app_r (x : string) (l1 l2 : list string) :
  x ∉ l1 → index_of x (l1 ++ l2) = (length l1 + index_of x l2)%nat.
Proof.
  induction l1 as [|y l1 IH]; [done|].
  intros Hx. apply not_elem_of_cons in Hx as [Hxy Hx].
  cbn. case_decide; [done|]. by rewrite IH.
Qed.

Lemma index_dict_snoc (start : nat) (keys : list string) (k : string) :
  index_dict start (keys ++ [k])
  = <[k := (start + length keys)%nat]> (index_dict start keys).
Proof.
  unfold index_dict, enumerate. rewrite imap_app, foldl_app. cbn.
  by rewrite Nat.add_0_r.
Qed.

Lemma index_dict_lookup (start : nat) (keys : list string) (k : string) :
  NoDup keys → k ∈ keys →
  index_dict start keys !! k = Some (start + index_of k keys)%nat.
Proof.
  induction keys as [|y keys IH] using rev_ind; [by intros _ ?%not_elem_of_nil|].
  intros [Hnd [Hy _]]%NoDup_app Hk. rewrite index_dict_snoc.
  destruct (decide (k = y)) as [->|Hne].
  - rewrite lookup_insert_eq, index_of_app_r.
    + cbn. rewrite decide_True by done. by rewrite Nat.add_0_r.
    + intros Hin. apply (Hy y Hin), list_elem_of_here.
  - apply elem_of_app in Hk as [Hk|Hk%list_elem_of_singleton]; [|done].
    rewrite lookup_insert_ne, index_of_app_l by done. by apply IH.
Qed.

Lemma region_idx_lookup df r :
  r ∈ df →
  region_idx df !! Region r = Some (index_of (Region r) (regions df)).
Proof.
  intros Hr. unfold region_idx.
  rewrite index_dict_lookup; [done | apply NoDup_unique |].
  apply elem_of_unique. unfold col. by apply list_elem_of_fmap_2.
Qed.

Lemma product_idx_lookup df r :
  r ∈ df →
  product_idx df !! Product r
  = Some (length (regions df) + index_of (Product r) (products df))%nat.
Proof.
  intros Hr. unfold product_idx.
  rewrite index_dict_lookup; [done | apply NoDup_unique |].
  apply elem_of_unique. unfold col. by apply list_elem_of_fmap_2.
Qed.

(** ** The Sankey loop *)

Lemma sankey_row_ok r_idx p_idx acc row (s t : nat) :
  r_idx !! Region row = Some s → p_idx !! Product row = Some t →
  sankey_row r_idx p_idx acc row
  = Ok (mkLinks (sources acc ++ [s]) (targets acc ++ [t])
          (values acc ++ [Sales row])).
Proof. intros Hs Ht. unfold sankey_row, dict_getitem. by rewrite Hs, Ht. Qed.

Lemma for_each_sankey_row r_idx p_idx (f g : Row → nat) rows acc :
  (∀ r, r ∈ rows →
        r_idx !! Region r = Some (f r) ∧ p_idx !! Product r = Some (g r)) →
  for_each (sankey_row r_idx p_idx) rows acc
  = Ok (mkLinks (sources acc ++ map f rows) (targets acc ++ map g rows)
          (values acc ++ map Sales rows)).
Proof.
  revert acc. induction rows as [|r rows IH]; intros acc Hidx.
  - cbn. rewrite !app_nil_r. by destruct acc.
  - destruct (Hidx r) as [Hr Hp]; [apply list_elem_of_here|].
    cbn [for_each]. rewrite (sankey_row_ok _ _ _ _ _ _ Hr Hp). cbn.
    rewrite IH.
    + cbn. by rewrite <- !app_assoc.
    + intros r' Hr'. apply Hidx. by apply list_elem_of_further.
Qed.

Lemma sankey_links_closed df :
  sankey_links df
  = Ok (mkLinks
          (map (λ r, index_of (Region r) (regions df)) df)
          (map (λ r, (length (regions df) + index_of (Product r) (products df))%nat) df)
          (col Sales df)).
Proof.
  unfold sankey_links. erewrite for_each_sankey_row; [done|].
  intros r Hr. split; [by apply region_idx_lookup | by apply product_idx_lookup].
Qed.

Lemma sankey_closed df :
  sankey df
  = Ok (mkSankey (regions df ++ products df)
          (mkLinks
             (map (λ r, index_of (Region r) (regions df)) df)
             (map (λ r, (length (regions df) + index_of (Product r) (products df))%nat) df)
             (col Sales df))).
Proof. unfold sankey. by rewrite sankey_links_closed. Qed.

(** C4: the Sankey data is built in the stated steps.  The node list is the
    distinct Regions followed by the distinct Products, each enumerated in
    order of first appearance (scanning the column, a label joins the end
    of the list when it has not been seen before, and is skipped
    otherwise), so Regions hold the indices 0..R-1 and Products R..R+P-1;
    and there is one link per row of the frame, in row order, from the
    row's Region index to its Product index, carrying the row's Sales. *)
Theorem sankey_built_in_steps df :
  sankey df
  = Ok (mkSankey (regions df ++ products df)
          (mkLinks
             (map (λ r, index_of (Region r) (regions df)) df)
             (map (λ r, (length (regions df) + index_of (Product r) (products df))%nat) df)
             (map Sales df)))
  ∧ regions df = unique (map Region df)
  ∧ products df = unique (map Product df)
  ∧ unique [] = []
  ∧ (∀ s x, unique (s ++ [x])
            = if decide (x ∈ s) then unique s else unique s ++ [x])
  ∧ (∀ s, NoDup (unique s))
  ∧ (∀ i x, regions df !! i = Some x → labels df !! i = Some x)
  ∧ (∀ j x, products df !! j = Some x →
            labels df !! (length (regions df) + j)%nat = Some x).
Proof.
  split; [apply sankey_closed|]. do 3 (split; [done|]).
  split; [apply unique_first_occurrence|].
  split; [apply NoDup_unique|]. unfold labels. split.
  - intros i x Hi. by apply lookup_app_l_Some.
  - intros j x Hj. by rewrite lookup_app_r, Nat.add_comm, Nat.add_sub by lia.
Qed.


(** C10: every link carries valid node indices.  For the row at position k
    of the frame, both dict lookups succeed; the source is below R and
    names the row's Region in the node list; the target lies in R..R+P-1
    and names the row's Product. *)
Theorem sankey_indices_valid df k r :
  df !! k = Some r →
  ∃ g s t,
    sankey df = Ok g
    ∧ region_idx df !! Region r = Some s
    ∧ product_idx df !! Product r = Some t
    ∧ sources (link g) !! k = Some s
    ∧ targets (link g) !! k = Some t
    ∧ (s < length (regions df))%nat
    ∧ node_label g !! s = Some (Region r)
    ∧ (length (regions df) ≤ t < length (regions df) + length (products df))%nat
    ∧ node_label g !! t = Some (Product r).
Proof.
  intros Hk.
  assert (r ∈ df) as Hr by (eapply list_elem_of_lookup_2, Hk).
  assert (Region r ∈ regions df) as HR.
  { apply elem_of_unique. unfold col. by apply list_elem_of_fmap_2. }
  assert (Product r ∈ products df) as HP.
  { apply elem_of_unique. unfold col. by apply list_elem_of_fmap_2. }
  eexists _, _, _. split; [apply sankey_closed|].
  split; [by apply region_idx_lookup|].
  split; [by apply product_idx_lookup|]. cbn.
  split; [by rewrite list_lookup_fmap, Hk|].
  split; [by rewrite list_lookup_fmap, Hk|].
  pose proof (index_of_lt _ _ HR). pose proof (index_of_lt _ _ HP).
  split; [done|].
  split; [by apply lookup_app_l_Some, index_of_lookup|].
  split; [lia|].
  rewrite lookup_app_r by lia.
  rewrite Nat.add_comm, Nat.add_sub. by apply index_of_lookup.
Qed.

Lemma sankey_indices_valid_witness :
  ∃ g s t,
    sankey scenario_df = Ok g
    ∧ region_idx scenario_df !! "West" = Some s
    ∧ product_idx scenario_df !! "Gadget" = Some t
    ∧ sources (link g) !! 1%nat = Some s
    ∧ targets (link g) !! 1%nat = Some t
    ∧ (s < length (regions scenario_df))%nat
    ∧ node_label g !! s = Some "West"
    ∧ (length (regions scenario_df) ≤ t
       < length (regions scenario_df) + length (products scenario_df))%nat
    ∧ node_label g !! t = Some "Gadget".
Proof.
  apply (sankey_indices_valid scenario_df 1
           (mkRow (to_datetime 19724) "West" "Gadget" 50%Q 1)).
  reflexivity.
Defined.

(** ** The per-date series *)



Lemma group_add_keys (k : Z) (v : Q) (g : list (Z * Q)) (x : Z) :
  x ∈ map fst (group_add Z.compare k v g) ↔ x = k ∨ x ∈ map fst g.
Proof.
  induction g as [|[k' t] g IH]; cbn.
  - rewrite list_elem_of_singleton, elem_of_nil. tauto.
  - destruct (Z.compare_spec k k') as [->|Hlt|Hgt]; cbn.
    + rewrite !elem_of_cons. tauto.
    + rewrite !elem_of_cons. tauto.
    + rewrite !elem_of_cons, IH. tauto.
Qed.




Lemma sales_over_time_snoc df r :
  sales_over_time (df ++ [r])
  = group_add Z.compare (Date r) (Sales r) (sales_over_time df).
Proof. unfold sales_over_time, groupby_sum. by rewrite foldl_snoc. Qed.


Lemma sales_over_time_keys df x :
  x ∈ map fst (sales_over_time df) ↔ x ∈ col Date df.
Proof.
  induction df as [|r df IH] using rev_ind; [done|].
  rewrite sales_over_time_snoc, group_add_keys, IH. unfold col.
  rewrite map_app, elem_of_app. cbn. rewrite list_elem_of_singleton. tauto.
Qed.





(** ** The whole run *)

(** C9: the run is not total over what the date-range control delivers.
    While only the first date of the range is picked, [date_filter] holds
    one date and [date_filter[1]] raises IndexError; with no date picked,
    [date_filter[0]] does. *)
Theorem app_incomplete_range_raises df rs ps :
  (∀ start, app df rs ps [start] = Raise IndexError)
  ∧ app df rs ps [] = Raise IndexError
  ∧ app scenario_df ["East"; "West"] ["Widget"; "Gadget"] [19723]
    = Raise IndexError.
Proof. repeat split. Qed.

(** * Further properties of the script *)

(** ** The filter at its edges *)

Lemma df_filtered_two_or_more df rs ps start stop rest :
  df_filtered df rs ps (start :: stop :: rest)
  = Ok (FilteredView df rs ps start stop).
Proof. exact (df_filtered_range df rs ps start stop). Qed.

Lemma filter_all_pass {A : Type} (f : A → bool) (l : list A) :
  Forall (λ x, f x = true) l → List.filter f l = l.
Proof.
  induction 1 as [|x l Hx _ IH]; [done|]. cbn. by rewrite Hx, IH.
Qed.

Lemma filter_none_pass {A : Type} (f : A → bool) (l : list A) :
  Forall (λ x, f x = false) l → List.filter f l = [].
Proof.
  induction 1 as [|x l Hx _ IH]; [done|]. cbn. by rewrite Hx, IH.
Qed.

Lemma filter_filter_same {A : Type} (f : A → bool) (l : list A) :
  List.filter f (List.filter f l) = List.filter f l.
Proof.
  apply filter_all_pass, Forall_forall. intros x Hx.
  apply list_elem_of_In, filter_In in Hx. tauto.
Qed.

Lemma filter_sublist_weaken {A : Type} (f g : A → bool) (l : list A) :
  (∀ x, f x = true → g x = true) →
  List.filter f l `sublist_of` List.filter g l.
Proof.
  intros Hfg. induction l as [|x l IH]; [constructor|]. cbn.
  destruct (f x) eqn:Hf.
  - rewrite (Hfg x Hf). by constructor.
  - destruct (g x); [by constructor | done].
Qed.

Lemma to_date_to_datetime (day : Z) : to_date (to_datetime day) = day.
Proof. unfold to_date, to_datetime, ns_per_day. by rewrite Z.div_mul. Qed.

Lemma to_date_bounds (ts : Z) :
  to_datetime (to_date ts) ≤ ts < to_datetime (to_date ts) + ns_per_day.
Proof.
  unfold to_date, to_datetime, ns_per_day.
  pose proof (Z.div_mod ts 86400000000000).
  pose proof (Z.mod_pos_bound ts 86400000000000). lia.
Qed.

(** X1: a selection whose end date lies before its start date keeps no
    row. *)
Theorem reversed_range_is_empty df rs ps start stop :
  stop < start → df_filtered df rs ps [start; stop] = Ok [].
Proof.
  intros Hlt. rewrite df_filtered_range. f_equal.
  apply filter_none_pass, Forall_forall. intros r _. unfold passes.
  assert (to_datetime stop < to_datetime start) as Hts
    by (unfold to_datetime, ns_per_day; lia).
  destruct (Z.leb_spec (to_datetime start) (Date r)),
           (Z.leb_spec (Date r) (to_datetime stop));
    rewrite ?andb_false_r; try done; lia.
Qed.

Lemma reversed_range_is_empty_witness :
  df_filtered scenario_df ["East"; "West"] ["Widget"; "Gadget"] [19724; 19723]
  = Ok [].
Proof.
  apply (reversed_range_is_empty scenario_df ["East"; "West"]
           ["Widget"; "Gadget"] 19724 19723).
  lia.
Defined.

(** X2: when the range is a single day, every row kept is stamped at
    exactly midnight of that day. *)
Theorem single_day_range df rs ps day :
  ∃ v, df_filtered df rs ps [day; day] = Ok v
       ∧ Forall (λ r, Date r = to_datetime day) v.
Proof.
  eexists. split; [apply df_filtered_range|].
  apply Forall_forall. intros r Hr.
  apply elem_of_FilteredView in Hr as [_ Hr]. apply passes_spec in Hr. lia.
Qed.

(** X3: a row stamped later than midnight on the end date is left out,
    although its calendar day is the end date. *)
Theorem end_date_keeps_midnight_only df rs ps start stop r :
  to_date (Date r) = stop → Date r ≠ to_datetime stop →
  ∃ v, df_filtered df rs ps [start; stop] = Ok v ∧ r ∉ v.
Proof.
  intros Hday Hne. eexists. split; [apply df_filtered_range|].
  intros Hr. apply elem_of_FilteredView in Hr as [_ Hr].
  apply passes_spec in Hr. pose proof (to_date_bounds (Date r)) as Hb.
  rewrite Hday in Hb. lia.
Qed.

Lemma end_date_keeps_midnight_only_witness :
  ∃ v, df_filtered
         [mkRow (to_datetime 19723) "East" "Widget" 100%Q 2;
          mkRow (to_datetime 19724 + 3600000000000) "West" "Gadget" 50%Q 1]
         ["East"; "West"] ["Widget"; "Gadget"] [19723; 19724] = Ok v
       ∧ mkRow (to_datetime 19724 + 3600000000000) "West" "Gadget" 50%Q 1 ∉ v.
Proof.
  apply (end_date_keeps_midnight_only _ _ _ 19723 19724
           (mkRow (to_datetime 19724 + 3600000000000) "West" "Gadget" 50%Q 1)).
  - reflexivity.
  - vm_compute. discriminate.
Defined.

(** X4: filtering is idempotent: running the same selection over its own
    result changes nothing (and fails the same way when the selection has
    fewer than two dates). *)
Theorem df_filtered_idempotent df rs ps dates :
  (v ← df_filtered df rs ps dates; df_filtered v rs ps dates)
  = df_filtered df rs ps dates.
Proof.
  destruct dates as [|start [|stop rest]]; [done | done |].
  rewrite df_filtered_two_or_more.
  change (df_filtered (FilteredView df rs ps start stop) rs ps
            (start :: stop :: rest) = Ok (FilteredView df rs ps start stop)).
  rewrite df_filtered_two_or_more. f_equal. apply filter_filter_same.
Qed.

(** X5: widening a selection never loses a row: with more regions, more
    products and a wider date range, the old result is a subsequence of the
    new one. *)
Theorem widening_keeps_rows df rs rs' ps ps' start start' stop stop' :
  rs ⊆ rs' → ps ⊆ ps' → start' ≤ start → stop ≤ stop' →
  ∃ v v', df_filtered df rs ps [start; stop] = Ok v
          ∧ df_filtered df rs' ps' [start'; stop'] = Ok v'
          ∧ v `sublist_of` v'.
Proof.
  intros Hrs Hps Hs He. eexists _, _.
  split; [apply df_filtered_range|]. split; [apply df_filtered_range|].
  apply filter_sublist_weaken. intros r (HR & HP & Hd)%passes_spec.
  apply passes_spec. apply to_datetime_le in Hs, He.
  split; [by apply Hrs|]. split; [by apply Hps | lia].
Qed.

Lemma widening_keeps_rows_witness :
  ∃ v v', df_filtered scenario_df ["East"] ["Widget"] [19723; 19723] = Ok v
          ∧ df_filtered scenario_df ["East"; "West"] ["Widget"; "Gadget"]
              [19723; 19724] = Ok v'
          ∧ v `sublist_of` v'.
Proof.
  apply (widening_keeps_rows scenario_df ["East"] ["East"; "West"]
           ["Widget"] ["Widget"; "Gadget"] 19723 19723 19723 19724).
  - intros x ->%list_elem_of_singleton. apply list_elem_of_here.
  - intros x ->%list_elem_of_singleton. apply list_elem_of_here.
  - lia.
  - lia.
Defined.

(** ** The untouched sidebar *)

Lemma foldl_min_spec (s : list Z) (x : Z) :
  (foldl Z.min x s = x ∨ foldl Z.min x s ∈ s)
  ∧ foldl Z.min x s ≤ x
  ∧ Forall (λ y, foldl Z.min x s ≤ y) s.
Proof.
  revert x. induction s as [|y s IH]; intros x; cbn.
  - split; [by left|]. split; [lia | constructor].
  - destruct (IH (Z.min x y)) as (Hm & Hle & Hall).
    split; [|split; [lia|constructor; [lia | done]]].
    destruct Hm as [Hm|Hm]; [|right; by apply list_elem_of_further].
    rewrite Hm. destruct (Z.min_spec x y) as [[_ ->]|[_ ->]];
      [by left | right; apply list_elem_of_here].
Qed.

Lemma foldl_max_spec (s : list Z) (x : Z) :
  (foldl Z.max x s = x ∨ foldl Z.max x s ∈ s)
  ∧ x ≤ foldl Z.max x s
  ∧ Forall (λ y, y ≤ foldl Z.max x s) s.
Proof.
  revert x. induction s as [|y s IH]; intros x; cbn.
  - split; [by left|]. split; [lia | constructor].
  - destruct (IH (Z.max x y)) as (Hm & Hle & Hall).
    split; [|split; [lia|constructor; [lia | done]]].
    destruct Hm as [Hm|Hm]; [|right; by apply list_elem_of_further].
    rewrite Hm. destruct (Z.max_spec x y) as [[_ ->]|[_ ->]];
      [right; apply list_elem_of_here | by left].
Qed.

Lemma Series_min_spec (s : list Z) (m : Z) :
  Series_min s = Some m → m ∈ s ∧ Forall (λ y, m ≤ y) s.
Proof.
  destruct s as [|x s]; [done|]. intros [= <-].
  destruct (foldl_min_spec s x) as (Hm & Hle & Hall). split.
  - destruct Hm as [->|Hm]; [apply list_elem_of_here | by apply list_elem_of_further].
  - by constructor.
Qed.

Lemma Series_max_spec (s : list Z) (m : Z) :
  Series_max s = Some m → m ∈ s ∧ Forall (λ y, y ≤ m) s.
Proof.
  destruct s as [|x s]; [done|]. intros [= <-].
  destruct (foldl_max_spec s x) as (Hm & Hle & Hall). split.
  - destruct Hm as [->|Hm]; [apply list_elem_of_here | by apply list_elem_of_further].
  - by constructor.
Qed.

Lemma default_date_filter_nonempty df :
  df ≠ [] →
  ∃ lo hi, Series_min (col Date df) = Some lo
           ∧ Series_max (col Date df) = Some hi
           ∧ default_date_filter df = Some [to_date lo; to_date hi].
Proof.
  destruct df as [|r df]; [done|]. intros _.
  eexists _, _. by repeat split.
Qed.

(** X6: with the sidebar left as it starts (every region, every product,
    the range from the earliest to the latest date), a non-empty dataset
    whose rows are all stamped at midnight is shown whole. *)
Theorem default_selection_keeps_all df :
  df ≠ [] →
  Forall (λ r, ∃ day, Date r = to_datetime day) df →
  ∃ dates, default_date_filter df = Some dates
           ∧ df_filtered df (default_region_filter df)
               (default_product_filter df) dates = Ok df.
Proof.
  intros Hne Hmid.
  destruct (default_date_filter_nonempty df Hne) as (lo & hi & Hlo & Hhi & ->).
  eexists. split; [done|]. rewrite df_filtered_range. f_equal.
  apply Series_min_spec in Hlo as [Hlo_in Hlo].
  apply Series_max_spec in Hhi as [Hhi_in Hhi].
  assert (∀ ts, ts ∈ col Date df → to_datetime (to_date ts) = ts) as Hround.
  { intros ts (r & -> & Hr)%list_elem_of_fmap.
    eapply Forall_forall in Hmid as [day ->]; [|exact Hr].
    by rewrite to_date_to_datetime. }
  apply filter_all_pass, Forall_forall. intros r Hr. apply passes_spec.
  assert (Date r ∈ col Date df) as Hd by (by apply list_elem_of_fmap_2).
  split; [|split].
  - apply elem_of_unique. by apply list_elem_of_fmap_2.
  - apply elem_of_unique. by apply list_elem_of_fmap_2.
  - rewrite !Hround by done.
    eapply Forall_forall in Hlo, Hhi; [|exact Hd..]. lia.
Qed.

Lemma default_selection_keeps_all_witness :
  ∃ dates, default_date_filter scenario_df = Some dates
           ∧ df_filtered scenario_df (default_region_filter scenario_df)
               (default_product_filter scenario_df) dates = Ok scenario_df.
Proof.
  apply (default_selection_keeps_all scenario_df).
  - discriminate.
  - repeat constructor; [by exists 19723 | by exists 19724].
Defined.

(** X7: with the sidebar left as it starts, a row of the latest calendar
    day that is stamped later than midnight is not shown: the default end
    of the range is midnight of that day. *)
Theorem default_selection_drops_late_rows df r hi :
  Series_max (col Date df) = Some hi →
  to_date (Date r) = to_date hi →
  Date r ≠ to_datetime (to_date (Date r)) →
  ∃ dates v, default_date_filter df = Some dates
             ∧ df_filtered df (default_region_filter df)
                 (default_product_filter df) dates = Ok v
             ∧ r ∉ v.
Proof.
  intros Hhi Hday Hlate.
  assert (df ≠ []) as Hne by (by intros ->).
  destruct (default_date_filter_nonempty df Hne) as (lo & hi' & _ & Hhi' & ->).
  assert (hi' = hi) as -> by congruence.
  eexists _, _. split; [done|]. split; [apply df_filtered_range|].
  intros Hr. apply elem_of_FilteredView in Hr as [_ Hr].
  apply passes_spec in Hr. pose proof (to_date_bounds (Date r)) as Hb.
  rewrite Hday in Hb, Hlate. lia.
Qed.

Lemma default_selection_drops_late_rows_witness :
  ∃ dates v,
    default_date_filter
      [mkRow (to_datetime 19723) "East" "Widget" 100%Q 2;
       mkRow (to_datetime 19724 + 3600000000000) "West" "Gadget" 50%Q 1]
    = Some dates
    ∧ df_filtered
        [mkRow (to_datetime 19723) "East" "Widget" 100%Q 2;
         mkRow (to_datetime 19724 + 3600000000000) "West" "Gadget" 50%Q 1]
        (default_region_filter
           [mkRow (to_datetime 19723) "East" "Widget" 100%Q 2;
            mkRow (to_datetime 19724 + 3600000000000) "West" "Gadget" 50%Q 1])
        (default_product_filter
           [mkRow (to_datetime 19723) "East" "Widget" 100%Q 2;
            mkRow (to_datetime 19724 + 3600000000000) "West" "Gadget" 50%Q 1])
        dates = Ok v
    ∧ mkRow (to_datetime 19724 + 3600000000000) "West" "Gadget" 50%Q 1 ∉ v.
Proof.
  apply (default_selection_drops_late_rows _
           (mkRow (to_datetime 19724 + 3600000000000) "West" "Gadget" 50%Q 1)
           (to_datetime 19724 + 3600000000000)).
  - reflexivity.
  - reflexivity.
  - vm_compute. discriminate.
Defined.

(** ** More on the Sankey data *)

Lemma index_of_at (l : list string) (i : nat) (x : string) :
  NoDup l → l !! i = Some x → index_of x l = i.
Proof.
  intros Hnd Hi. eapply NoDup_lookup; [exact Hnd | | exact Hi].
  apply index_of_lookup. by eapply list_elem_of_lookup_2.
Qed.

Lemma index_of_inj (l : list string) (x y : string) :
  x ∈ l → y ∈ l → index_of x l = index_of y l → x = y.
Proof.
  intros Hx%index_of_lookup Hy%index_of_lookup Heq.
  rewrite Heq in Hx. congruence.
Qed.

Lemma index_dict_lookup_None (start : nat) (keys : list string) (k : string) :
  k ∉ keys → index_dict start keys !! k = None.
Proof.
  induction keys as [|y keys IH] using rev_ind; [done|].
  intros Hk. apply not_elem_of_app in Hk as [Hk Hy].
  rewrite index_dict_snoc, lookup_insert_ne; [by apply IH|].
  intros ->. apply Hy, list_elem_of_here.
Qed.

Lemma Region_in_regions df r : r ∈ df → Region r ∈ regions df.
Proof. intros Hr. apply elem_of_unique. by apply list_elem_of_fmap_2. Qed.

Lemma Product_in_products df r : r ∈ df → Product r ∈ products df.
Proof. intros Hr. apply elem_of_unique. by apply list_elem_of_fmap_2. Qed.

(** X9: the Sankey data has no idle node and no node on both sides.  It
    has R + P nodes; each index below R is the source of some link and the
    target of none, each index from R on is the target of some link and
    the source of none. *)
Theorem sankey_every_node_linked df :
  ∃ g, sankey df = Ok g
       ∧ length (node_label g)
         = (length (regions df) + length (products df))%nat
       ∧ (∀ i, (i < length (regions df))%nat →
               i ∈ sources (link g) ∧ i ∉ targets (link g))
       ∧ (∀ i, (length (regions df) ≤ i < length (node_label g))%nat →
               i ∈ targets (link g) ∧ i ∉ sources (link g)).
Proof.
  eexists. split; [apply sankey_closed|]. cbn.
  split; [apply length_app|]. split.
  - intros i Hi. split.
    + apply lookup_lt_is_Some in Hi as [x Hx].
      assert (x ∈ col Region df) as (r & -> & Hr)%list_elem_of_fmap.
      { apply elem_of_unique. by eapply list_elem_of_lookup_2. }
      apply list_elem_of_fmap. exists r. split; [|done].
      symmetry. apply index_of_at; [apply NoDup_unique | done].
    + intros (r & -> & _)%list_elem_of_fmap. lia.
  - rewrite length_app. intros i Hi. split.
    + assert (i - length (regions df) < length (products df))%nat as Hj by lia.
      apply lookup_lt_is_Some in Hj as [x Hx].
      assert (x ∈ col Product df) as (r & -> & Hr)%list_elem_of_fmap.
      { apply elem_of_unique. by eapply list_elem_of_lookup_2. }
      apply list_elem_of_fmap. exists r. split; [|done].
      assert (index_of (Product r) (products df) = i - length (regions df))%nat
        as -> by (apply index_of_at; [apply NoDup_unique | done]).
      lia.
    + intros (r & -> & Hr)%list_elem_of_fmap.
      pose proof (index_of_lt _ _ (Region_in_regions df r Hr)). lia.
Qed.

(** X10: two rows are linked from the same source node exactly when they
    have the same Region, and to the same target node exactly when they
    have the same Product. *)
Theorem sankey_same_node_iff_same_label df k1 k2 r1 r2 :
  df !! k1 = Some r1 → df !! k2 = Some r2 →
  ∃ g, sankey df = Ok g
       ∧ (sources (link g) !! k1 = sources (link g) !! k2
          ↔ Region r1 = Region r2)
       ∧ (targets (link g) !! k1 = targets (link g) !! k2
          ↔ Product r1 = Product r2).
Proof.
  intros H1 H2. eexists. split; [apply sankey_closed|]. cbn.
  rewrite !list_lookup_fmap, H1, H2. cbn.
  apply list_elem_of_lookup_2 in H1, H2. split; split.
  - intros [= Heq].
    by eapply index_of_inj; [apply Region_in_regions.. | exact Heq].
  - by intros ->.
  - intros [= Heq]. apply Nat.add_cancel_l in Heq.
    by eapply index_of_inj; [apply Product_in_products.. | exact Heq].
  - by intros ->.
Qed.

Lemma sankey_same_node_iff_same_label_witness :
  ∃ g, sankey scenario_df = Ok g
       ∧ (sources (link g) !! 0%nat = sources (link g) !! 1%nat
          ↔ "East" = "West")
       ∧ (targets (link g) !! 0%nat = targets (link g) !! 1%nat
          ↔ "Widget" = "Gadget").
Proof.
  apply (sankey_same_node_iff_same_label scenario_df 0 1
           (mkRow (to_datetime 19723) "East" "Widget" 100%Q 2)
           (mkRow (to_datetime 19724) "West" "Gadget" 50%Q 1)).
  - reflexivity.
  - reflexivity.
Defined.

(** X11: the nodes drawn for a filtered frame stay inside the selection
    and inside the dataset: every Region node is a selected region that
    occurs in the dataset, every Product node a selected product that
    occurs in it. *)
Theorem sankey_nodes_within_selection df rs ps start stop :
  ∃ v, df_filtered df rs ps [start; stop] = Ok v
       ∧ regions v ⊆ rs ∧ regions v ⊆ regions df
       ∧ products v ⊆ ps ∧ products v ⊆ products df.
Proof.
  eexists. split; [apply df_filtered_range|].
  assert (∀ (f : Row → string) x,
            x ∈ unique (col f (FilteredView df rs ps start stop)) →
            ∃ r, x = f r ∧ r ∈ df ∧ passes rs ps start stop r = true) as Hin.
  { intros f x (r & -> & Hr)%elem_of_unique%list_elem_of_fmap.
    apply elem_of_FilteredView in Hr. eauto. }
  repeat split; intros x (r & -> & Hr & Hp)%Hin; apply passes_spec in Hp.
  - tauto.
  - by apply Region_in_regions.
  - tauto.
  - by apply Product_in_products.
Qed.

(** X12: the two index dicts hold exactly the labels of the frame they
    were built from: looking up a Region (Product) that occurs in the frame
    gives its node index, looking up any other label raises KeyError. *)
Theorem idx_lookup_by_label df x :
  dict_getitem (region_idx df) x
  = (if decide (x ∈ col Region df)
     then Ok (index_of x (regions df)) else Raise KeyError)
  ∧ dict_getitem (product_idx df) x
    = (if decide (x ∈ col Product df)
       then Ok (length (regions df) + index_of x (products df))%nat
       else Raise KeyError).
Proof.
  unfold dict_getitem, region_idx, product_idx, regions, products.
  split; case_decide as Hx.
  - rewrite index_dict_lookup; [done | apply NoDup_unique | by apply elem_of_unique].
  - rewrite index_dict_lookup_None; [done | by rewrite elem_of_unique].
  - rewrite index_dict_lookup; [done | apply NoDup_unique | by apply elem_of_unique].
  - rewrite index_dict_lookup_None; [done | by rewrite elem_of_unique].
Qed.

(** ** KPIs of a filtered frame *)

Lemma filter_sublist {A : Type} (f : A → bool) (l : list A) :
  List.filter f l `sublist_of` l.
Proof.
  induction l as [|x l IH]; [constructor|]. cbn.
  destruct (f x); by constructor.
Qed.

(** X16: the Total Quantity tile does not depend on the order of the rows,
    wrap-around included. *)
Theorem total_quantity_ignores_row_order df df' :
  df ≡ₚ df' → total_quantity df = total_quantity df'.
Proof.
  intros Hp. unfold total_quantity. rewrite !sum_Z_wraps. f_equal.
  apply exact_sum_Z_Permutation. by apply Permutation_map.
Qed.

Lemma total_quantity_ignores_row_order_witness :
  total_quantity overflow_df = total_quantity (reverse overflow_df).
Proof.
  apply (total_quantity_ignores_row_order overflow_df (reverse overflow_df)).
  apply perm_swap.
Defined.

(** X17: on a dataset without negative Quantity whose total quantity fits
    in 64 signed bits, the total quantity of any filtered frame lies
    between 0 and the total quantity of the whole dataset. *)
Theorem quantity_bounded_by_dataset df rs ps start stop :
  Forall (λ r, 0 ≤ Quantity r) df →
  exact_sum_Z (map Quantity df) < 2 ^ 63 →
  ∃ v, df_filtered df rs ps [start; stop] = Ok v
       ∧ 0 ≤ total_quantity v ≤ total_quantity df.
Proof.
  intros Hnn Hfit. eexists. split; [apply df_filtered_range|].
  pose proof (filter_sublist (passes rs ps start stop) df) as Hsub.
  fold (FilteredView df rs ps start stop) in Hsub.
  assert (Forall (λ n, 0 ≤ n) (map Quantity df)) as Hq by by apply Forall_fmap.
  assert (0 ≤ exact_sum_Z (map Quantity (FilteredView df rs ps start stop))
          ≤ exact_sum_Z (map Quantity df)) as Hv.
  { apply exact_sum_Z_sublist; [by apply fmap_sublist | done]. }
  unfold total_quantity, col. rewrite !sum_Z_wraps.
  rewrite !wrap_int64_small; lia.
Qed.

Lemma quantity_bounded_by_dataset_witness :
  ∃ v, df_filtered scenario_df ["East"] ["Widget"] [19723; 19724] = Ok v
       ∧ 0 ≤ total_quantity v ≤ total_quantity scenario_df.
Proof.
  apply (quantity_bounded_by_dataset scenario_df ["East"] ["Widget"] 19723 19724).
  - repeat constructor; cbn; lia.
  - vm_compute. reflexivity.
Defined.

(** ** The Sankey against the other charts *)



(** ** One frame behind every view *)

(** X20: every point of the series over time is dated inside the selected
    range. *)
Theorem series_dates_within_range df rs ps start stop :
  ∃ v, df_filtered df rs ps [start; stop] = Ok v
       ∧ Forall (λ e, to_datetime start ≤ e.1 ≤ to_datetime stop)
           (sales_over_time v).
Proof.
  eexists. split; [apply df_filtered_range|].
  apply Forall_forall. intros [x t] Hin.
  apply (list_elem_of_fmap_2 fst) in Hin. cbn in Hin.
  apply sales_over_time_keys in Hin.
  apply list_elem_of_fmap in Hin as (r & -> & Hr).
  apply elem_of_FilteredView in Hr as [_ Hr]. apply passes_spec in Hr. tauto.
Qed.

End machine.

(** * Where machine sums part from exact ones *)


